(** * opensearch_embeddings.ipynb: ranking terms against a passage, and the
      OpenSearch KNN query

    A shallow embedding of the two functions of the notebook,
    [try_model] (cell 5) and [do_query] (cell 19), with the data they read
    ([psg_gym_bench], [psg_tent], [queries], [idx], [my_idx]).

    The notebook's collaborators are libraries and a remote service:
    sentence-transformers ([SentenceTransformer], [model.encode],
    [util.dot_score], [util.pytorch_cos_sim]), TextBlob ([noun_phrases]) and
    the OpenSearch client ([es.search], [es.create], [es.indices]).  They
    are the fields of the classes [Embedder] and [Client], over which the
    notebook is defined; the modules [Ref], [Toy] and [Mem] give small
    executable instances of them, on which the functions are run.  The
    module [Raising] has cell 5 once more, with library calls that may
    raise; it is [try_model] when none does. *)

From Stdlib Require Import List String Ascii Bool ZArith Lia.
From Stdlib Require Import Sorted Permutation.
From Stdlib Require Import Floats DecimalString.
Import ListNotations.

Local Open Scope string_scope.
Local Open Scope list_scope.

(** ** Python values *)

(** Python's [float] is a binary64 number: Rocq's primitive [float]. *)
Definition pyfloat : Set := PrimFloat.float.

(** An embedding is what [model.encode(text).tolist()] would give. *)
Definition embedding := list pyfloat.

(** Exceptions that reach the caller of the notebook's functions: the
    [ValueError] that [try_model] raises itself, the transport errors of
    the OpenSearch client (status code and error name), and what is raised
    inside TextBlob or sentence-transformers (the name of the exception). *)
Inductive exception :=
| ValueError (msg : string)
| TransportError (status : Z) (info : string)
| LibraryError (name : string).

Module PyStr.

(** [c.lower()] on one character of the ASCII range; bytes outside
    [A-Z] are left as they are.  The notebook compares the lowered
    metric name with the two ASCII literals only, and no character
    outside ASCII lowers to one of their letters. *)
Definition lower_ascii (c : ascii) : ascii :=
  let n := nat_of_ascii c in
  if (65 <=? n)%nat && (n <=? 90)%nat then ascii_of_nat (n + 32) else c.

(** [s.lower()] *)
Fixpoint lower (s : string) : string :=
  match s with
  | EmptyString => EmptyString
  | String c s' => String (lower_ascii c) (lower s')
  end.

(** [sep.join(words)] *)
Definition join (sep : string) (words : list string) : string :=
  String.concat sep words.

End PyStr.

Module PyDict.

(** A Python [dict] keeps its keys in insertion order; assigning to a key
    that is present replaces the value and keeps the key's position. *)
Definition dict (V : Type) := list (string * V).

Fixpoint setitem {V} (d : dict V) (k : string) (v : V) : dict V :=
  match d with
  | [] => [(k, v)]
  | (k', v') :: d' =>
      if String.eqb k' k then (k', v) :: d' else (k', v') :: setitem d' k v
  end.

(** [{q: f(q) for q in qs}] *)
Definition comprehension {V} (f : string -> V) (qs : list string) : dict V :=
  fold_left (fun d q => setitem d q (f q)) qs [].

(** [d.items()] *)
Definition items {V} (d : dict V) : list (string * V) := d.

Definition keys {V} (d : dict V) : list string := map fst d.

End PyDict.

Module PySort.

(** [x < y] on the tuples [(score, term)]: the first components are
    compared with [==]; where they differ, [<] on them decides, and where
    they are equal the terms are compared (strings, by code point). *)
Definition tuple_lt (x y : pyfloat * string) : bool :=
  if PrimFloat.eqb (fst x) (fst y)
  then String.ltb (snd x) (snd y)
  else PrimFloat.ltb (fst x) (fst y).

Section Sort.
Context {A : Type} (lt : A -> A -> bool).

(** [x] goes after every element that is smaller and in front of the
    first that is not: equal elements keep their order. *)
Fixpoint insert (x : A) (l : list A) : list A :=
  match l with
  | [] => [x]
  | y :: l' => if lt y x then y :: insert x l' else x :: l
  end.

(** A stable sort into ascending order of [lt], standing for
    [list.sort]; it is what [list.sort] computes whenever [lt] is a
    strict weak order on the elements of the list. *)
Fixpoint sort (l : list A) : list A :=
  match l with
  | [] => []
  | x :: l' => insert x (sort l')
  end.

(** [sorted(l, reverse=True)]: the list is reversed, sorted and reversed
    again, so that equal elements keep their original order. *)
Definition sorted_reverse (l : list A) : list A := rev (sort (rev l)).

(** Ascending: no element is smaller than one in front of it. *)
Definition ascending : list A -> Prop := StronglySorted (fun a b => lt b a = false).

(** Descending: no element is greater than one in front of it. *)
Definition descending : list A -> Prop := StronglySorted (fun a b => lt a b = false).
End Sort.

End PySort.

(** ** The notebook's data (cell 2 and cell 13) *)

Definition psg_gym_bench : string :=
  "The BodyMax CF302 Flat Bench with Dumbbell Rack allows you to create an exciting and varied workout to help strengthen, tone and promote weight loss, whilst also keeping your gym floor clutter free! Stylish and classic, this flat bench has been thoughtfully constructed with durable upholstery and high-density padding to ensure maximum comfort while you train.".

Definition psg_tent : string :=
  "The Theta 4 Tent is a four-person tunnel tent, uniquely featuring two sleeping cabins and a moveable front wall, allowing you to choose whether you have a covered porch or a larger living area inside your tent. With such an incredible size of 340(W) x 480(D) x 190cm(H), the Theta 4 has more than plenty of space inside – perfect for a family getaway, a couples’ retreat, or a trip shared among friends.".

Definition queries : list string :=
  ["gym"; "holiday"; "bench"; "bra"; "television"; "exercise";
   "exercise equipment"; "weights bench"; "rower"; "weights"; "tent";
   "outdoors"; "camping"].

Definition my_idx : string := "rob_semantic_test".

(** ** The OpenSearch request, index body and response *)

(** The body of the search request built by [do_query]. *)
Record knn_clause := {
  knn_vector : embedding;   (* "vector": m.encode(term).tolist() *)
  knn_k : Z                 (* "k": max results per shard *)
}.

Record search_body := {
  qry_size : Z;             (* "size": max results *)
  qry_field : string;       (* the name of the knn column *)
  qry_knn : knn_clause
}.

(** The body [idx] of the index that cell 17 creates.  The "method" entry
    (the space type) is commented out in the notebook: no metric is
    configured. *)
Record knn_vector_mapping := {
  map_type : string;
  map_dimension : nat;
  map_method : option string
}.

Record index_body := {
  index_knn : bool;
  map_vector : knn_vector_mapping;
  map_description_type : string
}.

(** One hit of a response: [h["_id"]], [h["_score"]] and
    [h["_source"]["description"]]. *)
Record hit := {
  hit_id : string;
  hit_score : pyfloat;
  hit_description : string
}.

(** [res["hits"]["hits"]] *)
Record response := { hits : list hit }.

(** ** Executable instances of the collaborators *)

Module Ref.
Local Open Scope float_scope.

(** The two scorers of [sentence_transformers.util] over lists, in
    binary64: [dot_score(a, b)] is the matrix product of [a] with the
    transpose of [b]; [pytorch_cos_sim] is the same product after each row
    is divided by its norm, the norm being clamped below by [eps]. *)
Definition tensor := list (list pyfloat).

Definition dot (a b : embedding) : pyfloat :=
  fold_left (fun acc xy => acc + fst xy * snd xy) (combine a b) 0.

Definition norm (a : embedding) : pyfloat := PrimFloat.sqrt (dot a a).

(* 1e-12, the [eps] of [torch.nn.functional.normalize] *)
Definition eps : pyfloat := 0x1.19799812dea11p-40.

Definition clamp_min (x lo : pyfloat) : pyfloat :=
  if PrimFloat.ltb x lo then lo else x.

Definition normalize (a : embedding) : embedding :=
  map (fun x => x / clamp_min (norm a) eps) a.

Definition dot_score (a : embedding) (b : list embedding) : tensor :=
  [map (dot a) b].

Definition pytorch_cos_sim (a : embedding) (b : list embedding) : tensor :=
  [map (fun row => dot (normalize a) (normalize row)) b].

(** [float(t)] of a tensor with one element (the only tensors that
    [try_model] converts). *)
Definition float_ (t : tensor) : pyfloat :=
  match t with
  | [[x]] => x
  | _ => PrimFloat.nan
  end.
End Ref.

Module Toy.
Local Open Scope float_scope.

(** A table standing for an embedding model: two dimensions, or three for
    the model named "toy3"; a text that is not in the table gets the zero
    vector. *)
Definition model := string.

Definition SentenceTransformer (mod_name : string) : model := mod_name.

Definition encode (mdl : model) (text : string) : embedding :=
  if String.eqb mdl "toy3" then [1; 0; 0]
  else if String.eqb text "bench" then [1; 0]
  else if String.eqb text "tent" then [0; 1]
  else if String.eqb text "gym" then [0.875; 0.125]
  else if String.eqb text "camping" then [0.125; 0.875]
  else if String.eqb text psg_gym_bench then [1; 0]
  else if String.eqb text psg_tent then [0; 1]
  else [0; 0].

Definition noun_phrases (text : string) : list string := [text].

End Toy.

Module Mem.
Local Open Scope float_scope.

(** An in-memory search service: each index holds its body and its
    documents.  A search is refused unless the index maps a knn vector of
    the length of the query vector; it scans the documents of the index,
    scores each by [1 / (1 + d)] for the squared distance [d] to the query
    vector, and answers the [size] best.  A document is refused when its
    vector has not the mapped length or its id is taken; it is added to
    its index, which is created, with no knn vector mapped, when it is not
    there. *)
Record document := {
  doc_id : Z;
  doc_vector : embedding;
  doc_description : string
}.

Definition cluster := list (string * (index_body * list document)).

Fixpoint lookup (index : string) (c : cluster) : option (index_body * list document) :=
  match c with
  | [] => None
  | (name, content) :: c' => if String.eqb name index then Some content else lookup index c'
  end.

Fixpoint remove (index : string) (c : cluster) : cluster :=
  match c with
  | [] => []
  | (name, content) :: c' =>
      if String.eqb name index then remove index c' else (name, content) :: remove index c'
  end.

Definition dist2 (a b : embedding) : pyfloat :=
  fold_left (fun acc xy => acc + (fst xy - snd xy) * (fst xy - snd xy)) (combine a b) 0.

Definition to_hit (q : embedding) (d : document) : hit :=
  {| hit_id := NilZero.string_of_int (Z.to_int (doc_id d));
     hit_score := 1 / (1 + dist2 q (doc_vector d));
     hit_description := doc_description d |}.

Definition hit_lt (h1 h2 : hit) : bool := PrimFloat.ltb (hit_score h1) (hit_score h2).


Definition es_search (body : search_body) (index : string) (c : cluster)
  : (exception + response) * cluster :=
  match lookup index c with
  | None => (inl (TransportError 404 "index_not_found_exception"), c)
  | Some (ibody, docs) =>
      if negb (index_knn ibody)
      then (inl (TransportError 400 "query_shard_exception"), c)
      else if negb (Nat.eqb (List.length (knn_vector (qry_knn body)))
                            (map_dimension (map_vector ibody)))
      then (inl (TransportError 400 "illegal_argument_exception"), c)
      else
        let ranked := PySort.sorted_reverse hit_lt
                        (map (to_hit (knn_vector (qry_knn body))) docs) in
        (inr {| hits := firstn (Z.to_nat (qry_size body)) ranked |}, c)
  end.

Definition es_indices_delete (index : string) (c : cluster)
  : (exception + unit) * cluster :=
  match lookup index c with
  | None => (inl (TransportError 404 "index_not_found_exception"), c)
  | Some _ => (inr tt, remove index c)
  end.

Definition es_indices_create (index : string) (body : index_body) (c : cluster)
  : (exception + unit) * cluster :=
  match lookup index c with
  | Some _ => (inl (TransportError 400 "resource_already_exists_exception"), c)
  | None => (inr tt, (index, (body, [])) :: c)
  end.

(** The body of an index that a first document creates: the vector is
    mapped as plain numbers. *)
Definition dynamic_body (doc : embedding * string) : index_body :=
  {| index_knn := false;
     map_vector := {| map_type := "float";
                      map_dimension := List.length (fst doc);
                      map_method := None |};
     map_description_type := "text" |}.

Definition es_create (index : string) (doc : embedding * string) (id : Z) (c : cluster)
  : (exception + unit) * cluster :=
  let d := {| doc_id := id; doc_vector := fst doc; doc_description := snd doc |} in
  match lookup index c with
  | None => (inr tt, (index, (dynamic_body doc, [d])) :: c)
  | Some (body, docs) =>
      if index_knn body
         && negb (Nat.eqb (List.length (fst doc)) (map_dimension (map_vector body)))
      then (inl (TransportError 400 "mapper_parsing_exception"), c)
      else if existsb (fun d' => Z.eqb (doc_id d') id) docs
      then (inl (TransportError 409 "version_conflict_engine_exception"), c)
      else (inr tt, (index, (body, docs ++ [d])) :: remove index c)
  end.
End Mem.

(** ** The notebook *)

(** Calls to the OpenSearch client read or change the state of the remote
    service and may raise: a small state-and-exception monad. *)
Definition es_call (cluster A : Type) : Type := cluster -> (exception + A) * cluster.

Definition ret {cluster A} (a : A) : es_call cluster A := fun c => (inr a, c).

Definition bind {cluster A B} (x : es_call cluster A) (f : A -> es_call cluster B)
  : es_call cluster B :=
  fun c =>
    match x c with
    | (inl e, c') => (inl e, c')
    | (inr a, c') => f a c'
    end.

(** [try: x  except: pass] *)
Definition try_pass {cluster A} (x : es_call cluster A) : es_call cluster unit :=
  fun c => (inr tt, snd (x c)).

Notation "x <- c1 ;; c2" := (bind c1 (fun x => c2))
  (at level 61, c1 at next level, right associativity).

(** The libraries that cell 5 calls: TextBlob ([TextBlob(text).noun_phrases])
    and sentence-transformers ([SentenceTransformer(name)], [model.encode],
    the two scorers of [util], and [float] on their result). *)
Class Embedder := {
  noun_phrases : string -> list string;
  model : Type;
  SentenceTransformer : string -> model;
  encode : model -> string -> embedding;
  tensor : Type;
  dot_score : embedding -> list embedding -> tensor;
  pytorch_cos_sim : embedding -> list embedding -> tensor;
  float_ : tensor -> pyfloat
}.

(** The OpenSearch client [es]: the requests the notebook sends, each a
    call on the state of the remote service. *)
Class Client := {
  cluster : Type;
  es_search : search_body -> string -> es_call cluster response;
  es_indices_delete : string -> es_call cluster unit;
  es_indices_create : string -> index_body -> es_call cluster unit;
  es_create : string -> embedding * string -> Z -> es_call cluster unit
}.

Section Notebook.
Context {embedder : Embedder} {client : Client}.

(** [model.encode(texts)] on a list of texts gives one row per text. *)
Definition encode_list (mdl : model) (texts : list string) : list embedding :=
  map (encode mdl) texts.

(** The selection of the scorer from the metric name (cell 5, the
    [if]/[elif]/[else]). *)
Definition match_func_of (match_algo : string)
  : exception + (embedding -> list embedding -> tensor) :=
  if String.eqb (PyStr.lower match_algo) "dot" then inr dot_score
  else if String.eqb (PyStr.lower match_algo) "cosine" then inr pytorch_cos_sim
  else inl (ValueError "Invalid Match Function!").

(** Cell 5.  The passage is embedded, then every search term (into a dict
    keyed by the term); the scorer is chosen by the lowered metric name;
    the pairs [(score, term)] are returned sorted, greatest first. *)
Definition try_model (mod_name match_algo : string) (just_nouns : bool)
    (psg_in : string) (search_terms : list string)
  : exception + list (pyfloat * string) :=
  let psg_in := if just_nouns then PyStr.join " " (noun_phrases psg_in) else psg_in in
  let mdl := SentenceTransformer mod_name in
  let passage_embedding_1 := encode_list mdl [psg_in] in
  let search_terms := PyDict.comprehension (fun q => encode mdl q) search_terms in
  match match_func_of match_algo with
  | inl e => inl e
  | inr match_func =>
      inr (PySort.sorted_reverse PySort.tuple_lt
             (map (fun kv => (float_ (match_func (snd kv) passage_embedding_1), fst kv))
                  (PyDict.items search_terms)))
  end.

(** The score that [try_model] computes for the term [q] with the scorer
    [match_func]. *)
Definition score_of (match_func : embedding -> list embedding -> tensor)
    (mod_name : string) (just_nouns : bool) (psg_in : string) (q : string) : pyfloat :=
  let psg_in := if just_nouns then PyStr.join " " (noun_phrases psg_in) else psg_in in
  let mdl := SentenceTransformer mod_name in
  float_ (match_func (encode mdl q) (encode_list mdl [psg_in])).

(** The terms of the dict of [try_model], in the order of their first
    occurrence. *)
Definition terms_of (mod_name : string) (search_terms : list string) : list string :=
  PyDict.keys (PyDict.comprehension
                 (fun q => encode (SentenceTransformer mod_name) q) search_terms).

(** The globals that the OpenSearch cells read: the model [m] and the
    service behind the client [es]. *)
Record notebook := { m : model; es : cluster }.

(** A client call run on the notebook. *)
Definition on_es {A} (x : es_call cluster A) (nb : notebook)
  : (exception + A) * notebook :=
  let (r, c) := x (es nb) in (r, {| m := m nb; es := c |}).

(** Cell 17: the index body. *)
Definition idx (nb : notebook) : index_body :=
  {| index_knn := true;
     map_vector := {| map_type := "knn_vector";
                      map_dimension := List.length (encode (m nb) psg_gym_bench);
                      map_method := None |};
     map_description_type := "text" |}.

(** Cell 17: the index is deleted if it is there, and created. *)
Definition create_index (nb : notebook) : (exception + unit) * notebook :=
  on_es (_ <- try_pass (es_indices_delete my_idx) ;;
         es_indices_create my_idx (idx nb)) nb.

(** Cell 18: the two documents. *)
Definition add_documents (nb : notebook) : (exception + unit) * notebook :=
  on_es (_ <- es_create my_idx (encode (m nb) psg_gym_bench, psg_gym_bench) 1%Z ;;
         es_create my_idx (encode (m nb) psg_tent, psg_tent) 2%Z) nb.

(** Cell 19: the request of [do_query]. *)
Definition qry (nb : notebook) (term : string) : search_body :=
  {| qry_size := 2;
     qry_field := "vector";
     qry_knn := {| knn_vector := encode (m nb) term; knn_k := 2 |} |}.

(** Cell 19: the request is sent, and description and score of every hit
    of the answer are returned. *)
Definition do_query (term : string) (nb : notebook)
  : (exception + list (string * pyfloat)) * notebook :=
  on_es (res <- es_search (qry nb term) my_idx ;;
         ret (map (fun h => (hit_description h, hit_score h)) (hits res))) nb.

End Notebook.

(** ** Cell 5 with the libraries' exceptions

    Every call of cell 5 into TextBlob or sentence-transformers may raise
    instead of returning.  Here the calls return a value or an exception,
    and [try_model] runs them in the order of the source: the first
    exception is the outcome. *)

Module Raising.

Class Library := {
  noun_phrases : string -> exception + list string;
  model : Type;
  SentenceTransformer : string -> exception + model;
  encode : model -> string -> exception + embedding;
  tensor : Type;
  dot_score : embedding -> list embedding -> exception + tensor;
  pytorch_cos_sim : embedding -> list embedding -> exception + tensor;
  float_ : tensor -> exception + pyfloat
}.

(** The rest runs when the call returns. *)
Definition and_then {A B} (x : exception + A) (k : A -> exception + B) : exception + B :=
  match x with
  | inl e => inl e
  | inr a => k a
  end.

(** [[f(x) for x in l]], from the left, up to the first exception. *)
Fixpoint for_each {A B} (f : A -> exception + B) (l : list A) : exception + list B :=
  match l with
  | [] => inr []
  | x :: l' => and_then (f x) (fun y => and_then (for_each f l') (fun ys => inr (y :: ys)))
  end.

(** [{q: f(q) for q in qs}], continuing the dict [d], up to the first
    exception. *)
Fixpoint comprehension_from {V} (f : string -> exception + V) (qs : list string)
    (d : PyDict.dict V) : exception + PyDict.dict V :=
  match qs with
  | [] => inr d
  | q :: qs' => and_then (f q) (fun v => comprehension_from f qs' (PyDict.setitem d q v))
  end.

Section TryModel.
Context {library : Library}.

Definition match_func_of (match_algo : string)
  : exception + (embedding -> list embedding -> exception + tensor) :=
  if String.eqb (PyStr.lower match_algo) "dot" then inr dot_score
  else if String.eqb (PyStr.lower match_algo) "cosine" then inr pytorch_cos_sim
  else inl (ValueError "Invalid Match Function!").

(** Cell 5 up to the choice of the scorer: the noun phrases, the model, the
    embedding of the passage and the dict of the embeddings of the search
    terms. *)
Definition embeddings (mod_name : string) (just_nouns : bool)
    (psg_in : string) (search_terms : list string)
  : exception + (list embedding * PyDict.dict embedding) :=
  and_then (if just_nouns
            then and_then (noun_phrases psg_in) (fun nps => inr (PyStr.join " " nps))
            else inr psg_in) (fun psg_in =>
  and_then (SentenceTransformer mod_name) (fun mdl =>
  and_then (for_each (encode mdl) [psg_in]) (fun passage_embedding_1 =>
  and_then (comprehension_from (encode mdl) search_terms []) (fun search_terms =>
  inr (passage_embedding_1, search_terms))))).

(** Cell 5. *)
Definition try_model (mod_name match_algo : string) (just_nouns : bool)
    (psg_in : string) (search_terms : list string)
  : exception + list (pyfloat * string) :=
  and_then (embeddings mod_name just_nouns psg_in search_terms) (fun pd =>
  and_then (match_func_of match_algo) (fun match_func =>
  and_then (for_each
              (fun kv => and_then (match_func (snd kv) (fst pd)) (fun t =>
                         and_then (float_ t) (fun x => inr (x, fst kv))))
              (PyDict.items (snd pd))) (fun pairs =>
  inr (PySort.sorted_reverse PySort.tuple_lt pairs)))).

End TryModel.

End Raising.

(** The libraries of which every call returns. *)
Definition returning (embedder : Embedder) : Raising.Library :=
  {| Raising.noun_phrases := fun text => inr (noun_phrases text);
     Raising.model := model;
     Raising.SentenceTransformer := fun mod_name => inr (SentenceTransformer mod_name);
     Raising.encode := fun mdl text => inr (encode mdl text);
     Raising.tensor := tensor;
     Raising.dot_score := fun a b => inr (dot_score a b);
     Raising.pytorch_cos_sim := fun a b => inr (pytorch_cos_sim a b);
     Raising.float_ := fun t => inr (float_ t) |}.

(** ** The notebook run on the instances *)

Module Run.

Definition toy : Embedder :=
  {| noun_phrases := Toy.noun_phrases;
     model := Toy.model;
     SentenceTransformer := Toy.SentenceTransformer;
     encode := Toy.encode;
     tensor := Ref.tensor;
     dot_score := Ref.dot_score;
     pytorch_cos_sim := Ref.pytorch_cos_sim;
     float_ := Ref.float_ |}.

Definition mem : Client :=
  {| cluster := Mem.cluster;
     es_search := Mem.es_search;
     es_indices_delete := Mem.es_indices_delete;
     es_indices_create := Mem.es_indices_create;
     es_create := Mem.es_create |}.


Definition try_model := @try_model toy.
Definition create_index := @create_index toy mem.
Definition add_documents := @add_documents toy mem.
Definition qry := @qry toy mem.
Definition do_query := @do_query toy mem.

(** The notebook before cell 17, the service being empty. *)
Definition nb0 : @notebook toy mem :=
  @Build_notebook toy mem (Toy.SentenceTransformer "toy") [].

(** After cell 17, and after cells 17 and 18. *)
Definition nb1 : @notebook toy mem := snd (create_index nb0).
Definition nb2 : @notebook toy mem := snd (add_documents nb1).

End Run.

(** ** Comparisons, as three-way comparisons

    The comparison of two floats is undefined when one is a NaN; the
    comparison of two tuples [(score, term)] follows the scores and, where
    they are equal, the terms. *)

Definition float_cmp (x y : pyfloat) : option comparison :=
  SFcompare (Prim2SF x) (Prim2SF y).

Definition tuple_cmp (x y : pyfloat * string) : option comparison :=
  match float_cmp (fst x) (fst y) with
  | Some Eq => Some (String.compare (snd x) (snd y))
  | c => c
  end.

(** The score of the tuple is a number. *)
Definition not_nan (x : pyfloat * string) : Prop := PrimFloat.is_nan (fst x) = false.

(** The two metric names that [try_model] accepts, in any case. *)
Definition valid_metric (match_algo : string) : Prop :=
  PyStr.lower match_algo = "dot" \/ PyStr.lower match_algo = "cosine".

(** [y] is ranked after [x]: its score is smaller, or the scores are
    equal and its term is the smaller string. *)
Definition ranked_before (x y : pyfloat * string) : Prop :=
  PrimFloat.ltb (fst y) (fst x) = true \/
  (PrimFloat.eqb (fst x) (fst y) = true /\ String.ltb (snd y) (snd x) = true).


(** * Properties *)

(** ** The order of Python floats *)

Module FloatOrder.

(** The comparison of two specification floats is defined unless one of
    them is a NaN. *)
Lemma SFcompare_None (x y : spec_float) :
  SFcompare x y = None <-> x = S754_nan \/ y = S754_nan.
Proof.
  destruct x, y; simpl; split; intros H;
    try discriminate; try reflexivity; auto;
    destruct H as [H | H]; discriminate.
Qed.

Lemma SFcompare_antisym (x y : spec_float) :
  SFcompare y x = option_map CompOpp (SFcompare x y).
Proof.
  destruct x as [sx | sx | | sx mx ex], y as [sy | sy | | sy my ey]; simpl;
    try reflexivity;
    try (destruct sx; reflexivity); try (destruct sy; reflexivity);
    try (destruct sx, sy; reflexivity).
  destruct sx, sy; simpl; try reflexivity;
    change (Pos.compare_cont Eq my mx) with (Pos.compare my mx);
    change (Pos.compare_cont Eq mx my) with (Pos.compare mx my);
    rewrite (Z.compare_antisym ex ey), (Pos.compare_antisym mx my);
    destruct (Z.compare ex ey); simpl; try reflexivity;
    destruct (Pos.compare mx my); reflexivity.
Qed.

Ltac cases_of_compare :=
  repeat match goal with
    | |- context [Pos.compare_cont Eq ?a ?b] =>
        change (Pos.compare_cont Eq a b) with (Pos.compare a b)
    end;
  repeat match goal with
    | |- context [Z.compare ?a ?b] => destruct (Z.compare_spec a b)
    | |- context [Pos.compare ?a ?b] => destruct (Pos.compare_spec a b)
    end;
  simpl; intros; subst; try discriminate; try reflexivity; try lia.

Lemma SFcompare_trans (x y z : spec_float) :
  SFcompare x y = Some Lt -> SFcompare y z = Some Lt -> SFcompare x z = Some Lt.
Proof.
  destruct x as [sx | sx | | sx mx ex], y as [sy | sy | | sy my ey],
           z as [sz | sz | | sz mz ez]; simpl;
    try discriminate;
    try (destruct sx; simpl; try discriminate);
    try (destruct sy; simpl; try discriminate);
    try (destruct sz; simpl; try discriminate);
    try reflexivity; try (intros; assumption);
    intros H1 H2; injection H1 as H1; injection H2 as H2; f_equal;
    revert H1 H2; cases_of_compare.
Qed.

Lemma SFcompare_Eq_l (x y z : spec_float) :
  SFcompare x y = Some Eq -> SFcompare x z = SFcompare y z.
Proof.
  destruct x as [sx | sx | | sx mx ex], y as [sy | sy | | sy my ey]; simpl;
    try discriminate;
    try (destruct sx; simpl; try discriminate);
    try (destruct sy; simpl; try discriminate);
    intros H; try reflexivity.
  all: try (destruct z; reflexivity).
  all: injection H as H; revert H; cases_of_compare.
Qed.


(** The comparisons of primitive floats, through [float_cmp]. *)
Lemma ltb_cmp (x y : pyfloat) :
  PrimFloat.ltb x y = true <-> float_cmp x y = Some Lt.
Proof.
  unfold float_cmp. rewrite ltb_spec. unfold SFltb.
  destruct (SFcompare (Prim2SF x) (Prim2SF y)) as [[ | | ] | ];
    split; intros H; try discriminate; reflexivity.
Qed.

Lemma eqb_cmp (x y : pyfloat) :
  PrimFloat.eqb x y = true <-> float_cmp x y = Some Eq.
Proof.
  unfold float_cmp. rewrite eqb_spec. unfold SFeqb.
  destruct (SFcompare (Prim2SF x) (Prim2SF y)) as [[ | | ] | ];
    split; intros H; try discriminate; reflexivity.
Qed.

Lemma float_cmp_antisym (x y : pyfloat) :
  float_cmp y x = option_map CompOpp (float_cmp x y).
Proof. apply SFcompare_antisym. Qed.

Lemma float_cmp_refl (x : pyfloat) :
  PrimFloat.is_nan x = false -> float_cmp x x = Some Eq.
Proof.
  unfold PrimFloat.is_nan. intros H. apply eqb_cmp.
  now destruct (PrimFloat.eqb x x).
Qed.

Lemma not_nan_spec (x : pyfloat) :
  PrimFloat.is_nan x = false -> Prim2SF x <> S754_nan.
Proof.
  intros H E. apply float_cmp_refl in H. unfold float_cmp in H.
  rewrite E in H. discriminate.
Qed.

Lemma float_cmp_defined (x y : pyfloat) :
  PrimFloat.is_nan x = false -> PrimFloat.is_nan y = false ->
  exists c, float_cmp x y = Some c.
Proof.
  intros Hx Hy. unfold float_cmp.
  destruct (SFcompare (Prim2SF x) (Prim2SF y)) as [c | ] eqn:E.
  - now exists c.
  - apply SFcompare_None in E. destruct E as [E | E];
      [ now apply not_nan_spec in Hx | now apply not_nan_spec in Hy ].
Qed.

End FloatOrder.

(** ** The order of strings *)

Module StrOrder.

Lemma ascii_compare_trans (a b c : ascii) :
  Ascii.compare a b = Lt -> Ascii.compare b c = Lt -> Ascii.compare a c = Lt.
Proof.
  unfold Ascii.compare. rewrite !N.compare_lt_iff. lia.
Qed.

Lemma compare_trans (x : string) :
  forall y z, String.compare x y = Lt -> String.compare y z = Lt ->
              String.compare x z = Lt.
Proof.
  induction x as [ | a x IH]; intros [ | b y] [ | c z]; simpl;
    try discriminate; try reflexivity.
  destruct (Ascii.compare a b) eqn:Eab; try discriminate;
    destruct (Ascii.compare b c) eqn:Ebc; try discriminate; intros H1 H2.
  - apply Ascii.compare_eq_iff in Eab, Ebc. subst.
    assert (E : Ascii.compare c c = Eq)
      by (unfold Ascii.compare; apply N.compare_refl).
    rewrite E. now apply IH with y.
  - apply Ascii.compare_eq_iff in Eab. subst. now rewrite Ebc.
  - apply Ascii.compare_eq_iff in Ebc. subst. now rewrite Eab.
  - now rewrite (ascii_compare_trans a b c).
Qed.

Lemma compare_refl (x : string) : String.compare x x = Eq.
Proof.
  pose proof (String.compare_antisym x x) as H.
  destruct (String.compare x x); simpl in H; congruence.
Qed.

Lemma ltb_compare (x y : string) :
  String.ltb x y = true <-> String.compare x y = Lt.
Proof.
  unfold String.ltb. destruct (String.compare x y);
    split; intros H; try discriminate; reflexivity.
Qed.

End StrOrder.

(** ** The order of the tuples [(score, term)] *)

Module TupleOrder.
Import PySort.

Lemma tuple_lt_cmp (x y : pyfloat * string) :
  tuple_lt x y = true <-> tuple_cmp x y = Some Lt.
Proof.
  unfold tuple_lt, tuple_cmp.
  destruct (PrimFloat.eqb (fst x) (fst y)) eqn:E.
  - apply FloatOrder.eqb_cmp in E. rewrite E, StrOrder.ltb_compare.
    split; intros H; [ now rewrite H | now injection H ].
  - rewrite FloatOrder.ltb_cmp.
    destruct (float_cmp (fst x) (fst y)) as [[ | | ] | ] eqn:C;
      try (split; intros H; (discriminate || reflexivity)).
    apply FloatOrder.eqb_cmp in C. congruence.
Qed.

Lemma tuple_cmp_antisym (x y : pyfloat * string) :
  tuple_cmp y x = option_map CompOpp (tuple_cmp x y).
Proof.
  unfold tuple_cmp. rewrite (FloatOrder.float_cmp_antisym (fst x) (fst y)).
  destruct (float_cmp (fst x) (fst y)) as [[ | | ] | ]; simpl; try reflexivity.
  now rewrite (String.compare_antisym (snd y) (snd x)).
Qed.

Lemma tuple_cmp_trans (x y z : pyfloat * string) :
  tuple_cmp x y = Some Lt -> tuple_cmp y z = Some Lt -> tuple_cmp x z = Some Lt.
Proof.
  unfold tuple_cmp, float_cmp.
  destruct (SFcompare (Prim2SF (fst x)) (Prim2SF (fst y))) as [[ | | ] | ] eqn:Cxy;
    try discriminate;
    destruct (SFcompare (Prim2SF (fst y)) (Prim2SF (fst z))) as [[ | | ] | ] eqn:Cyz;
    try discriminate; intros H1 H2.
  - rewrite (FloatOrder.SFcompare_Eq_l _ _ _ Cxy), Cyz.
    injection H1 as H1. injection H2 as H2.
    now rewrite (StrOrder.compare_trans _ _ _ H1 H2).
  - now rewrite (FloatOrder.SFcompare_Eq_l _ _ _ Cxy), Cyz.
  - assert (C : SFcompare (Prim2SF (fst z)) (Prim2SF (fst x)) = Some Gt).
    { rewrite FloatOrder.SFcompare_antisym in Cyz.
      destruct (SFcompare (Prim2SF (fst z)) (Prim2SF (fst y))) as [[ | | ] | ] eqn:Czy;
        try discriminate.
      now rewrite (FloatOrder.SFcompare_Eq_l _ _ _ Czy), FloatOrder.SFcompare_antisym, Cxy. }
    rewrite FloatOrder.SFcompare_antisym, C. reflexivity.
  - now rewrite (FloatOrder.SFcompare_trans _ _ _ Cxy Cyz).
Qed.

Lemma tuple_cmp_Eq_l (x y z : pyfloat * string) :
  tuple_cmp x y = Some Eq -> tuple_cmp x z = tuple_cmp y z.
Proof.
  unfold tuple_cmp, float_cmp.
  destruct (SFcompare (Prim2SF (fst x)) (Prim2SF (fst y))) as [[ | | ] | ] eqn:Cxy;
    try discriminate.
  intros H. injection H as H. apply String.compare_eq_iff in H.
  now rewrite (FloatOrder.SFcompare_Eq_l _ _ _ Cxy), H.
Qed.

Lemma tuple_cmp_Eq_snd (x y : pyfloat * string) :
  tuple_cmp x y = Some Eq -> snd x = snd y.
Proof.
  unfold tuple_cmp.
  destruct (float_cmp (fst x) (fst y)) as [[ | | ] | ]; try discriminate.
  intros H. injection H as H. now apply String.compare_eq_iff.
Qed.

Lemma tuple_cmp_defined (x y : pyfloat * string) :
  not_nan x -> not_nan y -> exists c, tuple_cmp x y = Some c.
Proof.
  intros Hx Hy. destruct (FloatOrder.float_cmp_defined _ _ Hx Hy) as [c C].
  unfold tuple_cmp. rewrite C. destruct c; eauto.
Qed.

Lemma tuple_lt_false (x y : pyfloat * string) :
  not_nan x -> not_nan y ->
  tuple_lt x y = false -> tuple_cmp x y = Some Eq \/ tuple_cmp x y = Some Gt.
Proof.
  intros Hx Hy H. destruct (tuple_cmp_defined x y Hx Hy) as [[ | | ] C]; auto.
  apply tuple_lt_cmp in C. congruence.
Qed.

Lemma tuple_lt_asym (x y : pyfloat * string) :
  tuple_lt x y = true -> tuple_lt y x = false.
Proof.
  intros H. apply tuple_lt_cmp in H.
  destruct (tuple_lt y x) eqn:E; [ | reflexivity ].
  apply tuple_lt_cmp in E. rewrite tuple_cmp_antisym, H in E. discriminate.
Qed.

(** "Not smaller" is transitive on tuples whose scores are numbers. *)
Lemma tuple_ge_trans (x y z : pyfloat * string) :
  not_nan x -> not_nan y -> not_nan z ->
  tuple_lt z y = false -> tuple_lt y x = false -> tuple_lt z x = false.
Proof.
  intros Hx Hy Hz Hzy Hyx.
  destruct (tuple_lt z x) eqn:Hzx; [ exfalso | reflexivity ].
  apply tuple_lt_cmp in Hzx.
  destruct (tuple_lt_false z y Hz Hy Hzy) as [C | C].
  - rewrite (tuple_cmp_Eq_l _ _ _ C) in Hzx. apply tuple_lt_cmp in Hzx. congruence.
  - assert (Cyz : tuple_cmp y z = Some Lt) by now rewrite tuple_cmp_antisym, C.
    pose proof (tuple_cmp_trans _ _ _ Cyz Hzx) as Cyx.
    apply tuple_lt_cmp in Cyx. congruence.
Qed.

(** Two tuples with numbers for scores and different terms are ordered
    one way or the other. *)
Lemma tuple_lt_total (x y : pyfloat * string) :
  not_nan x -> not_nan y -> snd x <> snd y ->
  tuple_lt x y = false -> tuple_lt y x = true.
Proof.
  intros Hx Hy Hne H.
  destruct (tuple_lt_false x y Hx Hy H) as [C | C].
  - now apply tuple_cmp_Eq_snd in C.
  - apply tuple_lt_cmp. now rewrite tuple_cmp_antisym, C.
Qed.

Lemma ranked_before_iff (x y : pyfloat * string) :
  tuple_lt y x = true <-> ranked_before x y.
Proof.
  unfold tuple_lt, ranked_before.
  assert (Esym : PrimFloat.eqb (fst y) (fst x) = PrimFloat.eqb (fst x) (fst y)).
  { destruct (PrimFloat.eqb (fst x) (fst y)) eqn:E.
    - apply FloatOrder.eqb_cmp. apply FloatOrder.eqb_cmp in E.
      now rewrite FloatOrder.float_cmp_antisym, E.
    - destruct (PrimFloat.eqb (fst y) (fst x)) eqn:E'; [ | reflexivity ].
      apply FloatOrder.eqb_cmp in E'.
      assert (E2 : PrimFloat.eqb (fst x) (fst y) = true)
        by (apply FloatOrder.eqb_cmp; now rewrite FloatOrder.float_cmp_antisym, E').
      congruence. }
  rewrite Esym.
  destruct (PrimFloat.eqb (fst x) (fst y)) eqn:E.
  - split; [ auto | ].
    intros [H | [_ H]]; [ | exact H ].
    apply FloatOrder.ltb_cmp in H. apply FloatOrder.eqb_cmp in Esym. congruence.
  - split; [ auto | ]. intros [H | [H _]]; [ exact H | discriminate ].
Qed.

End TupleOrder.

(** ** The sort *)

Module SortFacts.
Import PySort.

Section Generic.
Context {A : Type} (lt : A -> A -> bool) (ok : A -> Prop).

Hypothesis lt_asym : forall x y, lt x y = true -> lt y x = false.
Hypothesis ge_trans : forall x y z, ok x -> ok y -> ok z ->
  lt z y = false -> lt y x = false -> lt z x = false.

Lemma insert_perm (x : A) (l : list A) : Permutation (insert lt x l) (x :: l).
Proof.
  induction l as [ | y l IH]; simpl; [ reflexivity | ].
  destruct (lt y x); [ | reflexivity ].
  rewrite IH. apply perm_swap.
Qed.

Lemma sort_perm (l : list A) : Permutation (sort lt l) l.
Proof.
  induction l as [ | x l IH]; simpl; [ reflexivity | ].
  rewrite insert_perm. now apply perm_skip.
Qed.

Lemma sorted_reverse_perm (l : list A) : Permutation (sorted_reverse lt l) l.
Proof.
  unfold sorted_reverse.
  rewrite <- Permutation_rev, sort_perm. symmetry. apply Permutation_rev.
Qed.

Lemma insert_ascending (x : A) (l : list A) :
  ok x -> Forall ok l -> ascending lt l -> ascending lt (insert lt x l).
Proof.
  intros Hx. induction l as [ | y l IH]; intros Hok Hs; simpl.
  - constructor; constructor.
  - apply StronglySorted_inv in Hs. destruct Hs as [Hs Hy].
    inversion Hok as [ | ? ? Hoky Hokl]; subst.
    destruct (lt y x) eqn:E.
    + constructor; [ now apply IH | ].
      apply (Permutation_Forall (x := x :: l)); [ symmetry; apply insert_perm | ].
      constructor; [ now apply lt_asym | exact Hy ].
    + constructor; [ now constructor | ].
      constructor; [ exact E | ].
      rewrite Forall_forall in *. intros z Hz.
      apply (ge_trans x y z); auto.
Qed.

Lemma sort_ascending (l : list A) : Forall ok l -> ascending lt (sort lt l).
Proof.
  induction l as [ | x l IH]; intros Hok; simpl; [ constructor | ].
  inversion Hok; subst.
  apply insert_ascending; auto.
  apply (Permutation_Forall (x := l)); [ symmetry; apply sort_perm | assumption ].
Qed.

Lemma StronglySorted_app (R : A -> A -> Prop) (l1 l2 : list A) :
  StronglySorted R l1 -> StronglySorted R l2 ->
  (forall a b, In a l1 -> In b l2 -> R a b) ->
  StronglySorted R (l1 ++ l2).
Proof.
  induction l1 as [ | a l1 IH]; simpl; intros H1 H2 H12; [ exact H2 | ].
  apply StronglySorted_inv in H1. destruct H1 as [H1 Ha].
  constructor.
  - apply IH; auto.
  - rewrite Forall_app. split; [ exact Ha | ].
    rewrite Forall_forall. intros b Hb. apply H12; auto.
Qed.

Lemma StronglySorted_rev (R : A -> A -> Prop) (l : list A) :
  StronglySorted R l -> StronglySorted (fun a b => R b a) (rev l).
Proof.
  induction l as [ | a l IH]; simpl; intros H; [ constructor | ].
  apply StronglySorted_inv in H. destruct H as [H Ha].
  apply StronglySorted_app; [ now apply IH | repeat constructor | ].
  intros b c Hb [<- | []]. rewrite <- in_rev in Hb.
  rewrite Forall_forall in Ha. now apply Ha.
Qed.

Lemma sorted_reverse_descending (l : list A) :
  Forall ok l -> descending lt (sorted_reverse lt l).
Proof.
  intros Hok. unfold sorted_reverse, descending.
  apply (StronglySorted_rev (fun a b => lt b a = false)).
  apply sort_ascending. now apply Forall_rev.
Qed.

Lemma StronglySorted_impl (R S : A -> A -> Prop) (l : list A) :
  (forall a b, In a l -> In b l -> a <> b -> R a b -> S a b) ->
  NoDup l -> StronglySorted R l -> StronglySorted S l.
Proof.
  induction l as [ | a l IH]; intros HRS Hnd H; [ constructor | ].
  apply StronglySorted_inv in H. destruct H as [H Ha].
  inversion Hnd as [ | ? ? Hnotin Hnd']; subst.
  constructor.
  - apply IH; auto. intros b c Hb Hc. apply HRS; now right.
  - rewrite Forall_forall in *. intros b Hb.
    apply HRS; [ now left | now right | | now apply Ha ].
    intros ->. contradiction.
Qed.

(** Two lists with the same elements, both sorted strictly, are the same
    list. *)
Lemma sorted_perm_unique (R : A -> A -> Prop) :
  (forall a b, R a b -> R b a -> False) ->
  forall l1 l2, StronglySorted R l1 -> StronglySorted R l2 ->
                Permutation l1 l2 -> l1 = l2.
Proof.
  intros Hasym. induction l1 as [ | a l1 IH]; intros l2 H1 H2 P.
  - apply Permutation_nil in P. now subst.
  - destruct l2 as [ | b l2];
      [ apply Permutation_sym, Permutation_nil in P; discriminate | ].
    apply StronglySorted_inv in H1. destruct H1 as [H1 Ha].
    apply StronglySorted_inv in H2. destruct H2 as [H2 Hb].
    rewrite Forall_forall in Ha, Hb.
    assert (E : a = b).
    { assert (Ia : In a (b :: l2)) by (apply (Permutation_in _ P); now left).
      assert (Ib : In b (a :: l1))
        by (apply (Permutation_in _ (Permutation_sym P)); now left).
      destruct Ia as [Ia | Ia]; [ now symmetry | ].
      destruct Ib as [Ib | Ib]; [ exact Ib | ].
      exfalso. apply (Hasym a b); [ now apply Ha | now apply Hb ]. }
    subst b. f_equal. apply IH; auto.
    now apply Permutation_cons_inv with a.
Qed.
End Generic.

End SortFacts.

(** ** The dict of the search terms *)

Module DictFacts.
Import PyDict.

Lemma keys_setitem {V} (d : dict V) (k : string) (v : V) :
  keys (setitem d k v) = if in_dec string_dec k (keys d) then keys d else keys d ++ [k].
Proof.
  unfold keys. induction d as [ | [k' v'] d IH]; simpl; [ reflexivity | ].
  destruct (String.eqb_spec k' k) as [E | Hne]; simpl.
  - subst k'. destruct (string_dec k k) as [E | C]; [ reflexivity | contradiction ].
  - rewrite IH. destruct (string_dec k' k) as [C | C]; [ contradiction | ].
    now destruct (in_dec string_dec k (map fst d)).
Qed.

Lemma setitem_values {V} (f : string -> V) (d : dict V) (k : string) :
  Forall (fun kv => snd kv = f (fst kv)) d ->
  Forall (fun kv => snd kv = f (fst kv)) (setitem d k (f k)).
Proof.
  induction d as [ | [k' v'] d IH]; simpl; intros H.
  - repeat constructor.
  - inversion H; subst. destruct (String.eqb_spec k' k) as [E | Hne].
    + subst k'. constructor; auto.
    + constructor; auto.
Qed.

Section Comprehension.
Context {V : Type} (f : string -> V).

Let step (d : dict V) (q : string) : dict V := setitem d q (f q).

Lemma fold_keys_NoDup (qs : list string) :
  forall d, NoDup (keys d) -> NoDup (keys (fold_left step qs d)).
Proof.
  induction qs as [ | q qs IH]; simpl; intros d Hd; [ exact Hd | ].
  apply IH. unfold step. rewrite keys_setitem.
  destruct (in_dec string_dec q (keys d)) as [Hin | Hnin]; [ exact Hd | ].
  apply NoDup_rev in Hd. rewrite <- (rev_involutive (keys d ++ [q])).
  apply NoDup_rev. rewrite rev_app_distr. simpl.
  constructor; [ now rewrite <- in_rev | exact Hd ].
Qed.

Lemma fold_keys_In (qs : list string) :
  forall d k, In k (keys (fold_left step qs d)) <-> In k (keys d) \/ In k qs.
Proof.
  induction qs as [ | q qs IH]; simpl; intros d k; [ tauto | ].
  rewrite IH. unfold step. rewrite keys_setitem.
  destruct (in_dec string_dec q (keys d)) as [Hin | Hnin].
  - split; [ tauto | ]. intros [H | [<- | H]]; auto.
  - rewrite in_app_iff. simpl. tauto.
Qed.

Lemma fold_values (qs : list string) :
  forall d, Forall (fun kv => snd kv = f (fst kv)) d ->
            Forall (fun kv => snd kv = f (fst kv)) (fold_left step qs d).
Proof.
  induction qs as [ | q qs IH]; simpl; intros d Hd; [ exact Hd | ].
  apply IH. now apply setitem_values.
Qed.

(** The keys of [{q: f(q) for q in qs}] are the terms of [qs], each
    once. *)
Lemma comprehension_NoDup (qs : list string) : NoDup (keys (comprehension f qs)).
Proof. apply fold_keys_NoDup. constructor. Qed.

Lemma comprehension_In (qs : list string) (k : string) :
  In k (keys (comprehension f qs)) <-> In k qs.
Proof.
  unfold comprehension. fold step. rewrite fold_keys_In. simpl. tauto.
Qed.

Lemma comprehension_length (qs : list string) :
  List.length (keys (comprehension f qs)) = List.length (nodup string_dec qs).
Proof.
  apply Permutation_length, NoDup_Permutation.
  - apply comprehension_NoDup.
  - apply NoDup_nodup.
  - intros k. now rewrite comprehension_In, nodup_In.
Qed.

(** Every value is the image of its key. *)
Lemma comprehension_items (g : string * V -> pyfloat * string) (qs : list string) :
  map g (items (comprehension f qs))
  = map (fun k => g (k, f k)) (keys (comprehension f qs)).
Proof.
  unfold items, keys.
  assert (H : Forall (fun kv => snd kv = f (fst kv)) (comprehension f qs))
    by (apply fold_values; constructor).
  induction H as [ | [k v] d Hkv _ IH]; simpl; [ reflexivity | ].
  simpl in Hkv. now rewrite IH, Hkv.
Qed.
End Comprehension.

End DictFacts.

(** ** The metric name *)

Module LowerFacts.
Import PyStr.

Lemma lower_ascii_idem (c : ascii) : lower_ascii (lower_ascii c) = lower_ascii c.
Proof. destruct c as [[] [] [] [] [] [] [] []]; reflexivity. Qed.

Lemma lower_idem (s : string) : lower (lower s) = lower s.
Proof.
  induction s as [ | c s IH]; simpl; [ reflexivity | ].
  now rewrite lower_ascii_idem, IH.
Qed.

End LowerFacts.

(** ** [try_model] *)

Section TryModelFacts.
Context {embedder : Embedder}.

Lemma match_func_of_lower (match_algo : string) :
  match_func_of (PyStr.lower match_algo) = match_func_of match_algo.
Proof. unfold match_func_of. now rewrite LowerFacts.lower_idem. Qed.

Lemma match_func_of_dot (match_algo : string) :
  PyStr.lower match_algo = "dot" -> match_func_of match_algo = inr dot_score.
Proof. unfold match_func_of. now intros ->. Qed.

Lemma match_func_of_cosine (match_algo : string) :
  PyStr.lower match_algo = "cosine" -> match_func_of match_algo = inr pytorch_cos_sim.
Proof. unfold match_func_of. now intros ->. Qed.

Lemma match_func_of_valid (match_algo : string) :
  valid_metric match_algo -> exists f, match_func_of match_algo = inr f.
Proof.
  intros [H | H];
    [ apply match_func_of_dot in H | apply match_func_of_cosine in H ]; eauto.
Qed.

Lemma match_func_of_invalid (match_algo : string) :
  PyStr.lower match_algo <> "dot" -> PyStr.lower match_algo <> "cosine" ->
  match_func_of match_algo = inl (ValueError "Invalid Match Function!").
Proof.
  intros Hd Hc. unfold match_func_of.
  apply String.eqb_neq in Hd, Hc. now rewrite Hd, Hc.
Qed.

(** What [try_model] returns once the scorer is chosen: the sorted list of
    one pair per key of the dict. *)
Lemma try_model_inr (mod_name match_algo : string) (just_nouns : bool)
    (psg_in : string) (search_terms : list string) f :
  match_func_of match_algo = inr f ->
  try_model mod_name match_algo just_nouns psg_in search_terms
  = inr (PySort.sorted_reverse PySort.tuple_lt
           (map (fun q => (score_of f mod_name just_nouns psg_in q, q))
                (terms_of mod_name search_terms))).
Proof.
  intros H. unfold try_model. rewrite H. do 2 f_equal.
  apply (DictFacts.comprehension_items
           (fun q => encode (SentenceTransformer mod_name) q)
           (fun kv => (float_ (f (snd kv) _), fst kv))).
Qed.

Lemma try_model_perm (mod_name match_algo : string) (just_nouns : bool)
    (psg_in : string) (search_terms : list string) f :
  match_func_of match_algo = inr f ->
  exists r,
    try_model mod_name match_algo just_nouns psg_in search_terms = inr r /\
    Permutation r (map (fun q => (score_of f mod_name just_nouns psg_in q, q))
                       (terms_of mod_name search_terms)).
Proof.
  intros H. rewrite (try_model_inr _ _ _ _ _ _ H).
  eexists. split; [ reflexivity | ].
  apply SortFacts.sorted_reverse_perm.
Qed.

Lemma try_model_terms (mod_name match_algo : string) (just_nouns : bool)
    (psg_in : string) (search_terms : list string) f :
  match_func_of match_algo = inr f ->
  exists r,
    try_model mod_name match_algo just_nouns psg_in search_terms = inr r /\
    Permutation (map snd r) (terms_of mod_name search_terms).
Proof.
  intros H.
  destruct (try_model_perm mod_name match_algo just_nouns psg_in search_terms f H)
    as [r [E P]].
  exists r. split; [ exact E | ].
  rewrite (Permutation_map snd P), map_map. simpl. now rewrite map_id.
Qed.

End TryModelFacts.

(** ** [do_query] *)

Section DoQueryFacts.
Context {embedder : Embedder} {client : Client}.

(** The outcome of [do_query] is the outcome of the search request: an
    exception of the client is passed on, and a response is projected hit
    by hit; the state of the service is the one the request leaves. *)
Lemma do_query_eq (term : string) (nb : notebook) :
  do_query term nb
  = (match fst (es_search (qry nb term) my_idx (es nb)) with
     | inl e => inl e
     | inr res => inr (map (fun h => (hit_description h, hit_score h)) (hits res))
     end,
     {| m := m nb; es := snd (es_search (qry nb term) my_idx (es nb)) |}).
Proof.
  unfold do_query, on_es, bind, ret.
  now destruct (es_search (qry nb term) my_idx (es nb)) as [[e | res] c].
Qed.

End DoQueryFacts.

(** The in-memory service answers a search without changing its state. *)
Lemma mem_es_search_read_only (q : search_body) (i : string) (c : Mem.cluster) :
  snd (Mem.es_search q i c) = c.
Proof.
  unfold Mem.es_search. destruct (Mem.lookup i c) as [[body docs] | ]; [ | reflexivity ].
  destruct (negb (index_knn body)); [ reflexivity | ].
  now destruct (negb (Nat.eqb _ _)).
Qed.


(** ** The ranking of the pairs *)

Module RankFacts.

Lemma ranked_before_asym (x y : pyfloat * string) :
  ranked_before x y -> ranked_before y x -> False.
Proof.
  intros H1 H2. apply TupleOrder.ranked_before_iff in H1, H2.
  apply TupleOrder.tuple_lt_asym in H1. congruence.
Qed.

Lemma map_snd_inj (l : list (pyfloat * string)) (a b : pyfloat * string) :
  NoDup (map snd l) -> In a l -> In b l -> snd a = snd b -> a = b.
Proof.
  induction l as [ | x l IH]; simpl; intros Hnd Ha Hb E; [ contradiction | ].
  inversion Hnd as [ | ? ? Hnotin Hnd']; subst.
  destruct Ha as [Ha | Ha], Hb as [Hb | Hb]; subst; auto.
  - exfalso. apply Hnotin. rewrite E. now apply in_map.
  - exfalso. apply Hnotin. rewrite <- E. now apply in_map.
Qed.

(** Pairs with numbers for scores and pairwise distinct terms are sorted
    by [sorted(..., reverse=True)] into the ranking: each is ranked before
    all those behind it. *)
Lemma sorted_reverse_ranked (l : list (pyfloat * string)) :
  NoDup (map snd l) -> Forall not_nan l ->
  StronglySorted ranked_before (PySort.sorted_reverse PySort.tuple_lt l).
Proof.
  intros Hnd Hnn.
  pose proof (SortFacts.sorted_reverse_perm PySort.tuple_lt l) as P.
  assert (Hnd' : NoDup (map snd (PySort.sorted_reverse PySort.tuple_lt l)))
    by (apply (Permutation_NoDup (Permutation_map snd (Permutation_sym P))), Hnd).
  assert (Hnn' : Forall not_nan (PySort.sorted_reverse PySort.tuple_lt l))
    by (apply (Permutation_Forall (Permutation_sym P)), Hnn).
  apply (SortFacts.StronglySorted_impl (fun a b => PySort.tuple_lt a b = false)).
  - intros a b Ha Hb Hab Hlt. apply TupleOrder.ranked_before_iff.
    rewrite Forall_forall in Hnn'.
    apply TupleOrder.tuple_lt_total; auto.
    intros Esnd. apply Hab.
    now apply (map_snd_inj (PySort.sorted_reverse PySort.tuple_lt l)).
  - now apply NoDup_map_inv with (f := snd).
  - apply (SortFacts.sorted_reverse_descending PySort.tuple_lt not_nan
             TupleOrder.tuple_lt_asym TupleOrder.tuple_ge_trans), Hnn.
Qed.

(** The same pairs given in another order are sorted into the same
    list. *)
Lemma sorted_reverse_order_independent (l1 l2 : list (pyfloat * string)) :
  NoDup (map snd l1) -> Forall not_nan l1 -> Permutation l1 l2 ->
  PySort.sorted_reverse PySort.tuple_lt l1 = PySort.sorted_reverse PySort.tuple_lt l2.
Proof.
  intros Hnd Hnn P.
  apply (SortFacts.sorted_perm_unique ranked_before ranked_before_asym).
  - now apply sorted_reverse_ranked.
  - apply sorted_reverse_ranked.
    + apply (Permutation_NoDup (Permutation_map snd P)), Hnd.
    + apply (Permutation_Forall P), Hnn.
  - rewrite !SortFacts.sorted_reverse_perm. exact P.
Qed.

End RankFacts.

(** ** Cell 5 when no call raises *)

Module RaisingFacts.

Lemma for_each_returning {A B} (g : A -> B) (l : list A) :
  Raising.for_each (fun x => inr (g x)) l = inr (map g l).
Proof.
  induction l as [ | x l IH]; simpl; [ reflexivity | ]. now rewrite IH.
Qed.

Lemma comprehension_from_returning {V} (f : string -> V) (qs : list string) :
  forall d, Raising.comprehension_from (fun q => inr (f q)) qs d
            = inr (fold_left (fun d q => PyDict.setitem d q (f q)) qs d).
Proof.
  induction qs as [ | q qs IH]; simpl; intros d; [ reflexivity | ]. apply IH.
Qed.

(** When every call of the libraries returns, cell 5 with exceptions is
    [try_model]. *)
Lemma try_model_returning {embedder : Embedder} (mod_name match_algo : string)
    (just_nouns : bool) (psg_in : string) (search_terms : list string) :
  @Raising.try_model (returning embedder) mod_name match_algo just_nouns psg_in search_terms
  = try_model mod_name match_algo just_nouns psg_in search_terms.
Proof.
  unfold Raising.try_model, Raising.embeddings, try_model, encode_list.
  destruct just_nouns; simpl;
    rewrite comprehension_from_returning; simpl;
    unfold Raising.match_func_of, match_func_of; simpl;
    destruct (String.eqb (PyStr.lower match_algo) "dot"); simpl;
    try (rewrite (for_each_returning
                    (fun kv : string * embedding => (float_ (dot_score (snd kv) _), fst kv)));
         reflexivity);
    destruct (String.eqb (PyStr.lower match_algo) "cosine"); simpl;
    try (rewrite (for_each_returning
                    (fun kv : string * embedding => (float_ (pytorch_cos_sim (snd kv) _), fst kv)));
         reflexivity);
    reflexivity.
Qed.

End RaisingFacts.

(** * The claims *)

Section Claims.
Context {embedder : Embedder} {client : Client}.

(** C1, as amended.  For a metric name that [try_model] accepts, the
    result is the list of pairs sorted from the greatest down: whenever
    the scores are numbers, every pair is ranked before all the pairs
    behind it, that is, it has a greater score, or an equal score and the
    greater term.  Equal scores are thus allowed, and they are ordered by
    term, greatest first.  The order in which the search terms are given
    has no part in it: the same terms in any order, and with any
    repetition, give the same result. *)
Theorem try_model_ranked (mod_name match_algo : string) (just_nouns : bool)
    (psg_in : string) (search_terms : list string) :
  valid_metric match_algo ->
  exists r,
    try_model mod_name match_algo just_nouns psg_in search_terms = inr r /\
    (Forall not_nan r ->
     StronglySorted ranked_before r /\
     forall search_terms',
       (forall t, In t search_terms' <-> In t search_terms) ->
       try_model mod_name match_algo just_nouns psg_in search_terms' = inr r).
Proof.
  intros Hv. destruct (match_func_of_valid _ Hv) as [f Hf].
  rewrite (try_model_inr _ _ _ _ _ _ Hf).
  eexists. split; [ reflexivity | ]. intros Hnn.
  set (g := fun q => (score_of f mod_name just_nouns psg_in q, q)) in *.
  assert (Hsnd : forall ks, map snd (map g ks) = ks)
    by (intros ks; rewrite map_map; apply map_id).
  assert (Hnd : NoDup (map snd (map g (terms_of mod_name search_terms))))
    by (rewrite Hsnd; apply DictFacts.comprehension_NoDup).
  assert (Hnn0 : Forall not_nan (map g (terms_of mod_name search_terms)))
    by (apply (Permutation_Forall (SortFacts.sorted_reverse_perm PySort.tuple_lt _)), Hnn).
  split; [ now apply RankFacts.sorted_reverse_ranked | ].
  intros search_terms' Hsame.
  rewrite (try_model_inr _ _ _ _ _ _ Hf). fold g. f_equal.
  apply RankFacts.sorted_reverse_order_independent.
  - rewrite Hsnd. apply DictFacts.comprehension_NoDup.
  - apply (Permutation_Forall (x := map g (terms_of mod_name search_terms)));
      [ | exact Hnn0 ].
    apply Permutation_map, NoDup_Permutation;
      try apply DictFacts.comprehension_NoDup.
    intros t. unfold terms_of. rewrite !DictFacts.comprehension_In.
    symmetry. apply Hsame.
  - apply Permutation_map, NoDup_Permutation;
      try apply DictFacts.comprehension_NoDup.
    intros t. unfold terms_of. rewrite !DictFacts.comprehension_In. apply Hsame.
Qed.


(** C3, as amended.  [try_model] makes no check of the vectors: under the
    cosine metric, as under the dot metric, it returns for every search
    term the score that the library's scorer gives, and raises nothing,
    zero vectors included. *)
Theorem try_model_scores_unchecked (mod_name match_algo : string) (just_nouns : bool)
    (psg_in : string) (search_terms : list string) :
  (PyStr.lower match_algo = "cosine" ->
   exists r,
     try_model mod_name match_algo just_nouns psg_in search_terms = inr r /\
     forall q, In q search_terms ->
               In (score_of pytorch_cos_sim mod_name just_nouns psg_in q, q) r) /\
  (PyStr.lower match_algo = "dot" ->
   exists r,
     try_model mod_name match_algo just_nouns psg_in search_terms = inr r /\
     forall q, In q search_terms ->
               In (score_of dot_score mod_name just_nouns psg_in q, q) r).
Proof.
  split; intros H;
    [ apply match_func_of_cosine in H | apply match_func_of_dot in H ];
    destruct (try_model_perm mod_name match_algo just_nouns psg_in search_terms _ H)
      as [r [Er P]];
    exists r; (split; [ exact Er | ]); intros q Hq;
    apply (Permutation_in _ (Permutation_sym P));
    apply in_map_iff; exists q; (split; [ reflexivity | ]);
    now apply DictFacts.comprehension_In.
Qed.

(** C4, as amended.  The metric is an argument of each call of
    [try_model]: on the same model, passage and search terms, a call with
    one accepted name and a call with another both return their results.
    The index body [idx] configures no metric. *)
Theorem metric_chosen_per_call (mod_name algo1 algo2 : string) (just_nouns : bool)
    (psg_in : string) (search_terms : list string) (nb : notebook) :
  (valid_metric algo1 -> valid_metric algo2 ->
   exists r1 r2,
     try_model mod_name algo1 just_nouns psg_in search_terms = inr r1 /\
     try_model mod_name algo2 just_nouns psg_in search_terms = inr r2) /\
  map_method (map_vector (idx nb)) = None.
Proof.
  split; [ | reflexivity ].
  intros H1 H2.
  destruct (match_func_of_valid _ H1) as [f1 Hf1].
  destruct (match_func_of_valid _ H2) as [f2 Hf2].
  rewrite (try_model_inr _ _ _ _ _ _ Hf1), (try_model_inr _ _ _ _ _ _ Hf2).
  eauto.
Qed.


(** C6.  Finding nothing is not an error: with no search term,
    [try_model] returns the empty list for every metric name it accepts;
    and when the service answers with no hit, [do_query] returns the empty
    list. *)
Theorem no_result_is_success (mod_name match_algo : string) (just_nouns : bool)
    (psg_in : string) (term : string) (nb : notebook) :
  (valid_metric match_algo ->
   try_model mod_name match_algo just_nouns psg_in [] = inr []) /\
  (forall c, es_search (qry nb term) my_idx (es nb) = (inr {| hits := [] |}, c) ->
             fst (do_query term nb) = inr []).
Proof.
  split.
  - intros Hv. destruct (match_func_of_valid _ Hv) as [f Hf].
    now rewrite (try_model_inr _ _ _ _ _ _ Hf).
  - intros c Hs. now rewrite do_query_eq, Hs.
Qed.

(** C7.  [do_query] is read-only: given that a search request leaves the
    state of the service as it is, the notebook (the model [m] and the
    service behind [es], with its indices and documents) is the same after
    [do_query] as before. *)
Theorem do_query_read_only :
  (forall q i c, snd (es_search q i c) = c) ->
  forall (term : string) (nb : notebook), snd (do_query term nb) = nb.
Proof.
  intros Hro term nb. rewrite do_query_eq. simpl. rewrite Hro.
  now destruct nb.
Qed.


(** C9.  Duplicate search terms are collapsed: the result of [try_model]
    has one pair per distinct term.  Its terms are pairwise distinct, they
    are exactly the terms given, and its length is the number of distinct
    terms given. *)
Theorem try_model_one_pair_per_term (mod_name match_algo : string) (just_nouns : bool)
    (psg_in : string) (search_terms : list string) :
  valid_metric match_algo ->
  exists r,
    try_model mod_name match_algo just_nouns psg_in search_terms = inr r /\
    NoDup (map snd r) /\
    (forall t, In t (map snd r) <-> In t search_terms) /\
    List.length r = List.length (nodup string_dec search_terms).
Proof.
  intros Hv. destruct (match_func_of_valid _ Hv) as [f Hf].
  destruct (try_model_terms mod_name match_algo just_nouns psg_in search_terms f Hf)
    as [r [Er Pk]].
  exists r. split; [ exact Er | ]. repeat split.
  - apply (Permutation_NoDup (Permutation_sym Pk)).
    apply DictFacts.comprehension_NoDup.
  - intros Ht. apply (Permutation_in _ Pk) in Ht.
    now apply DictFacts.comprehension_In in Ht.
  - intros Ht. apply (Permutation_in _ (Permutation_sym Pk)).
    now apply DictFacts.comprehension_In.
  - rewrite <- (length_map snd r), (Permutation_length Pk).
    apply DictFacts.comprehension_length.
Qed.

(** C10.  The metric name is read without regard to case: [try_model]
    called with a name returns, or raises, what it does when called with
    the lowered name. *)
Theorem try_model_case_insensitive (mod_name match_algo : string) (just_nouns : bool)
    (psg_in : string) (search_terms : list string) :
  try_model mod_name match_algo just_nouns psg_in search_terms
  = try_model mod_name (PyStr.lower match_algo) just_nouns psg_in search_terms.
Proof.
  unfold try_model. now rewrite match_func_of_lower.
Qed.

End Claims.

(** * The claims on the instances *)

(** C1, as stated, fails.  Two terms that are not in the table both get the
    zero vector and so the same score: the result is not strictly
    descending by score, and "b", inserted after "a", is placed before
    it. *)
Lemma equal_scores_are_ordered_by_term :
  Run.try_model "toy" "dot" false psg_gym_bench ["a"; "b"]
  = inr [(0%float, "b"); (0%float, "a")] /\
  ~ StronglySorted (fun x y => PrimFloat.ltb (fst y) (fst x) = true)
      [(0%float, "b"); (0%float, "a")].
Proof.
  split; [ vm_compute; reflexivity | ].
  intros H. apply StronglySorted_inv in H. destruct H as [_ H].
  inversion H as [ | ? ? Hlt _]; subst. vm_compute in Hlt. discriminate.
Qed.

(** C1, as amended, on the table model: six search terms, one repeated and
    two of equal score, are ranked; and the same terms given in another
    order give the same result. *)
Lemma try_model_ranked_witness :
  valid_metric "Cosine" /\
  exists r,
    Run.try_model "toy" "Cosine" false psg_gym_bench
      ["gym"; "tent"; "bench"; "zzz"; "gym"; "camping"] = inr r /\
    StronglySorted ranked_before r /\
    Run.try_model "toy" "Cosine" false psg_gym_bench
      ["camping"; "zzz"; "bench"; "tent"; "gym"] = inr r.
Proof.
  assert (Hv : valid_metric "Cosine") by (right; reflexivity).
  split; [ exact Hv | ].
  destruct (@try_model_ranked Run.toy "toy" "Cosine" false psg_gym_bench
              ["gym"; "tent"; "bench"; "zzz"; "gym"; "camping"] Hv) as [r [E H]].
  exists r. split; [ exact E | ].
  assert (Hnn : Forall not_nan r)
    by (vm_compute in E; injection E as <-; repeat constructor).
  destruct (H Hnn) as [Hs Ho].
  split; [ exact Hs | ].
  apply Ho. intros t. simpl. tauto.
Defined.


(** C3, as stated, fails.  The term "zzz" and the passage "yyy" are not in
    the table: both vectors are zero.  Under the cosine metric [try_model]
    raises nothing and returns the score 0. *)
Lemma cosine_of_zero_vectors_is_zero :
  Toy.encode "toy" "zzz" = [0%float; 0%float] /\
  Toy.encode "toy" "yyy" = [0%float; 0%float] /\
  Run.try_model "toy" "cosine" false "yyy" ["zzz"] = inr [(0%float, "zzz")].
Proof. repeat split; vm_compute; reflexivity. Qed.

(** C3, as amended, on zero vectors: the cosine metric returns the pair of
    the term with the score of the scorer, which is 0. *)
Lemma try_model_scores_unchecked_witness :
  (exists r,
     Run.try_model "toy" "cosine" false "yyy" ["zzz"] = inr r /\
     forall q, In q ["zzz"] ->
               In (@score_of Run.toy Ref.pytorch_cos_sim "toy" false "yyy" q, q) r) /\
  (exists r,
     Run.try_model "toy" "cosine" false "yyy" ["zzz"] = inr r /\
     In (0%float, "zzz") r).
Proof.
  destruct (@try_model_scores_unchecked Run.toy "toy" "cosine" false "yyy" ["zzz"])
    as [Hcos _].
  split; [ exact (Hcos eq_refl) | ].
  destruct (Hcos eq_refl) as [r [E H]].
  exists r. split; [ exact E | ]. apply (H "zzz"). now left.
Defined.

(** C4, as stated, fails: on the same model, passage and terms, a call with
    the dot metric and then a call with the cosine metric both return
    results. *)
Lemma metrics_are_mixed_freely :
  exists r1 r2,
    Run.try_model "toy" "dot" false psg_gym_bench queries = inr r1 /\
    Run.try_model "toy" "cosine" false psg_gym_bench queries = inr r2 /\
    r1 <> r2.
Proof.
  eexists. eexists. split; [ vm_compute; reflexivity | ].
  split; [ vm_compute; reflexivity | ].
  intros H.
  apply (f_equal (fun r : list (pyfloat * string) =>
                    match r with
                    | _ :: (x, _) :: _ => PrimFloat.eqb x 0.875
                    | _ => false
                    end)) in H.
  vm_compute in H. discriminate.
Qed.

(** C4, as amended, on the queries of the notebook: dot, then cosine. *)
Lemma metric_chosen_per_call_witness :
  valid_metric "dot" /\ valid_metric "COSINE" /\
  exists r1 r2,
    Run.try_model "toy" "dot" false psg_gym_bench queries = inr r1 /\
    Run.try_model "toy" "COSINE" false psg_gym_bench queries = inr r2.
Proof.
  assert (H1 : valid_metric "dot") by (left; reflexivity).
  assert (H2 : valid_metric "COSINE") by (right; reflexivity).
  split; [ exact H1 | split; [ exact H2 | ] ].
  exact (proj1 (@metric_chosen_per_call Run.toy Run.mem "toy" "dot" "COSINE" false
                  psg_gym_bench queries Run.nb0) H1 H2).
Defined.


(** C6 on the instances: no search term, and an index without
    documents. *)
Lemma no_result_is_success_witness :
  Run.try_model "toy" "dot" false psg_gym_bench [] = inr [] /\
  fst (Run.do_query "gym" Run.nb1) = inr [].
Proof.
  destruct (@no_result_is_success Run.toy Run.mem "toy" "dot" false psg_gym_bench
              "gym" Run.nb1) as [H1 H2].
  split.
  - apply H1. left. reflexivity.
  - apply (H2 (es Run.nb1)). vm_compute. reflexivity.
Defined.

(** C7 on the in-memory service, whose search is read-only. *)
Lemma do_query_read_only_witness :
  (forall q i c, snd (Mem.es_search q i c) = c) /\
  snd (Run.do_query "gym" Run.nb2) = Run.nb2.
Proof.
  split; [ exact mem_es_search_read_only | ].
  apply (@do_query_read_only Run.toy Run.mem). exact mem_es_search_read_only.
Defined.

(** The cells that write do change the service: the state in [Mem] is not a
    constant. *)
Lemma add_documents_changes_the_service : es Run.nb2 <> es Run.nb1.
Proof.
  intros H.
  apply (f_equal (fun c => match Mem.lookup my_idx c with
                           | Some (_, docs) => List.length docs
                           | None => 0%nat
                           end)) in H.
  vm_compute in H. discriminate.
Qed.



(** C9 for five search terms, three of them distinct. *)
Lemma try_model_one_pair_per_term_witness :
  valid_metric "Dot" /\
  exists r,
    Run.try_model "toy" "Dot" false psg_tent ["gym"; "tent"; "gym"; "bench"; "tent"] = inr r /\
    NoDup (map snd r) /\
    (forall t, In t (map snd r) <-> In t ["gym"; "tent"; "gym"; "bench"; "tent"]) /\
    List.length r = 3%nat.
Proof.
  assert (Hv : valid_metric "Dot") by (left; reflexivity).
  split; [ exact Hv | ].
  exact (@try_model_one_pair_per_term Run.toy "toy" "Dot" false psg_tent
           ["gym"; "tent"; "gym"; "bench"; "tent"] Hv).
Defined.

(** C10 on the queries of the notebook: "DOT", "Dot" and "dot" select the
    same scorer and give the same result. *)
Lemma dot_in_any_case :
  Run.try_model "toy" "DOT" false psg_tent queries
  = Run.try_model "toy" "dot" false psg_tent queries /\
  Run.try_model "toy" "Dot" false psg_tent queries
  = Run.try_model "toy" "dot" false psg_tent queries.
Proof.
  split.
  - exact (@try_model_case_insensitive Run.toy "toy" "DOT" false psg_tent queries).
  - exact (@try_model_case_insensitive Run.toy "toy" "Dot" false psg_tent queries).
Defined.

(** The thirteen queries of the notebook, all distinct, give thirteen
    pairs. *)
Lemma queries_give_thirteen_pairs :
  exists r, Run.try_model "toy" "cosine" true psg_gym_bench queries = inr r /\
            List.length r = 13%nat.
Proof. eexists. split; vm_compute; reflexivity. Qed.

(** * Further properties of the notebook *)

(** ** More on floats, dicts and client calls *)

Module MoreFacts.
Import PyDict.

Lemma leb_cmp (x y : pyfloat) :
  PrimFloat.leb x y = true <-> float_cmp x y = Some Lt \/ float_cmp x y = Some Eq.
Proof.
  unfold float_cmp. rewrite leb_spec. unfold SFleb.
  destruct (SFcompare (Prim2SF x) (Prim2SF y)) as [[ | | ] | ];
    split; intros H; auto; try discriminate;
    destruct H as [H | H]; discriminate.
Qed.

(** A pair is ranked before another only if its score is at least the
    other's. *)
Lemma ranked_before_leb (x y : pyfloat * string) :
  ranked_before x y -> PrimFloat.leb (fst y) (fst x) = true.
Proof.
  intros [H | [H _]]; apply leb_cmp.
  - left. now apply FloatOrder.ltb_cmp.
  - right. apply FloatOrder.eqb_cmp in H.
    now rewrite FloatOrder.float_cmp_antisym, H.
Qed.

(** Assigning to a key the value it has leaves the dict as it is. *)
Lemma setitem_same {V} (f : string -> V) (d : dict V) (k : string) :
  Forall (fun kv => snd kv = f (fst kv)) d -> In k (keys d) ->
  setitem d k (f k) = d.
Proof.
  unfold keys. induction d as [ | [k' v'] d IH]; simpl; intros Hv Hin; [ contradiction | ].
  inversion Hv as [ | ? ? Hkv Hv']; subst. simpl in Hkv.
  destruct (String.eqb_spec k' k) as [E | Hne].
  - subst k'. now rewrite Hkv.
  - f_equal. apply IH; [ exact Hv' | ]. destruct Hin as [Hin | Hin]; [ contradiction | exact Hin ].
Qed.

Lemma comprehension_values {V} (f : string -> V) (qs : list string) :
  Forall (fun kv => snd kv = f (fst kv)) (comprehension f qs).
Proof. apply DictFacts.fold_values. constructor. Qed.

(** A term that was given before adds nothing to the dict when it is given
    once more at the end. *)
Lemma comprehension_repeated {V} (f : string -> V) (qs : list string) (q : string) :
  In q qs -> comprehension f (qs ++ [q]) = comprehension f qs.
Proof.
  intros Hin. unfold comprehension. rewrite fold_left_app. simpl.
  apply (setitem_same f).
  - apply comprehension_values.
  - now apply DictFacts.comprehension_In.
Qed.

(** When the terms are pairwise distinct, the keys of the dict are the
    terms. *)
Lemma comprehension_keys_perm {V} (f : string -> V) (qs : list string) :
  NoDup qs -> Permutation (keys (comprehension f qs)) qs.
Proof.
  intros Hnd. apply NoDup_Permutation; [ apply DictFacts.comprehension_NoDup | exact Hnd | ].
  intros k. apply DictFacts.comprehension_In.
Qed.


End MoreFacts.

(** ** [try_model], further *)

Section TryModelMore.
Context {embedder : Embedder}.

Lemma try_model_inr_valid (mod_name match_algo : string) (just_nouns : bool)
    (psg_in : string) (search_terms : list string) r :
  try_model mod_name match_algo just_nouns psg_in search_terms = inr r ->
  valid_metric match_algo.
Proof.
  intros Hr. unfold valid_metric.
  destruct (String.eqb_spec (PyStr.lower match_algo) "dot") as [Hd | Hd]; [ now left | ].
  destruct (String.eqb_spec (PyStr.lower match_algo) "cosine") as [Hc | Hc]; [ now right | ].
  unfold try_model in Hr. rewrite (match_func_of_invalid _ Hd Hc) in Hr. discriminate.
Qed.

(** X2.  Every pair of the result is the pair of a search term: its term
    was given, and its score is the one the chosen scorer gives for that
    term against the passage. *)
Theorem try_model_pairs_sound (mod_name match_algo : string) (just_nouns : bool)
    (psg_in : string) (search_terms : list string) f r (s : pyfloat) (t : string) :
  match_func_of match_algo = inr f ->
  try_model mod_name match_algo just_nouns psg_in search_terms = inr r ->
  In (s, t) r ->
  In t search_terms /\ s = score_of f mod_name just_nouns psg_in t.
Proof.
  intros Hf Hr Hin.
  destruct (try_model_perm mod_name match_algo just_nouns psg_in search_terms f Hf)
    as [r' [Er' P]].
  rewrite Hr in Er'. injection Er' as <-.
  apply (Permutation_in _ P) in Hin. apply in_map_iff in Hin.
  destruct Hin as [q [E Hq]]. injection E as <- <-.
  split; [ | reflexivity ].
  now apply DictFacts.comprehension_In in Hq.
Qed.

(** X3.  When the search terms are pairwise distinct, none is dropped: the
    terms of the result are the search terms in another order, and the
    result has as many pairs as terms were given. *)
Theorem try_model_distinct_terms (mod_name match_algo : string) (just_nouns : bool)
    (psg_in : string) (search_terms : list string) :
  valid_metric match_algo -> NoDup search_terms ->
  exists r,
    try_model mod_name match_algo just_nouns psg_in search_terms = inr r /\
    Permutation (map snd r) search_terms /\
    List.length r = List.length search_terms.
Proof.
  intros Hv Hnd. destruct (match_func_of_valid _ Hv) as [f Hf].
  destruct (try_model_terms mod_name match_algo just_nouns psg_in search_terms f Hf)
    as [r [Er Pk]].
  assert (P : Permutation (map snd r) search_terms).
  { rewrite Pk. now apply MoreFacts.comprehension_keys_perm. }
  exists r. split; [ exact Er | split; [ exact P | ] ].
  rewrite <- (length_map snd r). now apply Permutation_length.
Qed.

(** X4.  A search term given once more at the end changes nothing, whether
    [try_model] returns or raises. *)
Theorem try_model_repeated_term (mod_name match_algo : string) (just_nouns : bool)
    (psg_in : string) (search_terms : list string) (q : string) :
  In q search_terms ->
  try_model mod_name match_algo just_nouns psg_in (search_terms ++ [q])
  = try_model mod_name match_algo just_nouns psg_in search_terms.
Proof.
  intros Hin. unfold try_model.
  now rewrite (MoreFacts.comprehension_repeated _ _ _ Hin).
Qed.

(** X5.  The first pair of the result is a best match: when the scores are
    numbers, no pair behind it has a greater score. *)
Theorem try_model_best_first (mod_name match_algo : string) (just_nouns : bool)
    (psg_in : string) (search_terms : list string) x rest :
  try_model mod_name match_algo just_nouns psg_in search_terms = inr (x :: rest) ->
  Forall not_nan (x :: rest) ->
  Forall (fun y => PrimFloat.leb (fst y) (fst x) = true) rest.
Proof.
  intros Hr Hnn.
  pose proof (try_model_inr_valid _ _ _ _ _ _ Hr) as Hv.
  destruct (match_func_of_valid _ Hv) as [f Hf].
  rewrite (try_model_inr _ _ _ _ _ _ Hf) in Hr. injection Hr as Hr.
  assert (Hs : StronglySorted ranked_before (x :: rest)).
  { rewrite <- Hr. apply RankFacts.sorted_reverse_ranked.
    - rewrite map_map. simpl. rewrite map_id. apply DictFacts.comprehension_NoDup.
    - apply (Permutation_Forall (SortFacts.sorted_reverse_perm PySort.tuple_lt _)).
      now rewrite Hr. }
  apply StronglySorted_inv in Hs. destruct Hs as [_ Hx].
  apply (Forall_impl _ (MoreFacts.ranked_before_leb x) Hx).
Qed.

(** X6.  The two metrics rank the same terms: for two metric names that
    [try_model] accepts, the terms of one result are the terms of the other
    in another order. *)
Theorem try_model_same_terms (mod_name algo1 algo2 : string) (just_nouns : bool)
    (psg_in : string) (search_terms : list string) :
  valid_metric algo1 -> valid_metric algo2 ->
  exists r1 r2,
    try_model mod_name algo1 just_nouns psg_in search_terms = inr r1 /\
    try_model mod_name algo2 just_nouns psg_in search_terms = inr r2 /\
    Permutation (map snd r1) (map snd r2).
Proof.
  intros H1 H2.
  destruct (match_func_of_valid _ H1) as [f1 Hf1].
  destruct (match_func_of_valid _ H2) as [f2 Hf2].
  destruct (try_model_terms mod_name algo1 just_nouns psg_in search_terms f1 Hf1)
    as [r1 [E1 P1]].
  destruct (try_model_terms mod_name algo2 just_nouns psg_in search_terms f2 Hf2)
    as [r2 [E2 P2]].
  exists r1, r2. split; [ exact E1 | split; [ exact E2 | ] ].
  now rewrite P1, P2.
Qed.

End TryModelMore.

(** ** The OpenSearch cells, further *)

Section CellsMore.
Context {embedder : Embedder} {client : Client}.

Lemma on_es_m {A} (x : es_call cluster A) (nb : notebook) :
  m (snd (on_es x nb)) = m nb.
Proof. unfold on_es. now destruct (x (es nb)). Qed.


(** X9.  Queries do not interfere: given that a search request leaves the
    service as it is, after any series of queries the notebook is as it
    was, and a query is answered as if none had been run before. *)
Theorem queries_do_not_interfere :
  (forall q i c, snd (es_search q i c) = c) ->
  forall (terms : list string) (term : string) (nb : notebook),
    fold_left (fun s t => snd (do_query t s)) terms nb = nb /\
    do_query term (fold_left (fun s t => snd (do_query t s)) terms nb)
    = do_query term nb.
Proof.
  intros Hro terms term nb.
  assert (H : fold_left (fun s t => snd (do_query t s)) terms nb = nb).
  { induction terms as [ | t terms IH]; simpl; [ reflexivity | ].
    assert (E : snd (do_query t nb) = nb)
      by (rewrite do_query_eq; simpl; rewrite Hro; now destruct nb).
    now rewrite E. }
  split; [ exact H | now rewrite H ].
Qed.

(** X13.  The OpenSearch cells keep the model: after cells 17 and 18, and
    any series of queries, [m] is the model it was.  So, for a model whose
    vectors all have one length, the vector of every query has the
    dimension that cell 17 declared for the index. *)
Theorem query_dimension_is_index_dimension (nb : notebook) (terms : list string)
    (term : string) :
  (forall t1 t2, List.length (encode (m nb) t1) = List.length (encode (m nb) t2)) ->
  let nb' := fold_left (fun s t => snd (do_query t s)) terms
               (snd (add_documents (snd (create_index nb)))) in
  m nb' = m nb /\
  List.length (knn_vector (qry_knn (qry nb' term)))
  = map_dimension (map_vector (idx nb)).
Proof.
  intros Hdim nb'.
  assert (Hm : m nb' = m nb).
  { unfold nb'.
    assert (Hfold : forall s, m (fold_left (fun s t => snd (do_query t s)) terms s) = m s).
    { induction terms as [ | t terms IH]; simpl; intros s; [ reflexivity | ].
      rewrite IH. unfold do_query. apply on_es_m. }
    rewrite Hfold. unfold add_documents, create_index. now rewrite !on_es_m. }
  split; [ exact Hm | ].
  simpl. rewrite Hm. apply Hdim.
Qed.

End CellsMore.

(** ** The further properties on the instances *)

(** X2 under the dot metric: the pair of "gym" in the result. *)
Lemma try_model_pairs_sound_witness :
  Run.try_model "toy" "dot" false psg_gym_bench ["bench"; "gym"]
  = inr [(1%float, "bench"); (0.875%float, "gym")] /\
  In "gym" ["bench"; "gym"] /\
  0.875%float = @score_of Run.toy Ref.dot_score "toy" false psg_gym_bench "gym".
Proof.
  assert (E : Run.try_model "toy" "dot" false psg_gym_bench ["bench"; "gym"]
              = inr [(1%float, "bench"); (0.875%float, "gym")])
    by (vm_compute; reflexivity).
  split; [ exact E | ].
  apply (@try_model_pairs_sound Run.toy "toy" "dot" false psg_gym_bench ["bench"; "gym"]
           Ref.dot_score [(1%float, "bench"); (0.875%float, "gym")]);
    [ reflexivity | exact E | right; left; reflexivity ].
Defined.

(** X3 on the queries of the notebook, which are pairwise distinct. *)
Lemma try_model_distinct_terms_witness :
  NoDup queries /\
  exists r,
    Run.try_model "toy" "cosine" false psg_gym_bench queries = inr r /\
    Permutation (map snd r) queries /\
    List.length r = 13%nat.
Proof.
  assert (Hnd : NoDup queries).
  { assert (E : nodup string_dec queries = queries) by (vm_compute; reflexivity).
    rewrite <- E. apply NoDup_nodup. }
  split; [ exact Hnd | ].
  apply (@try_model_distinct_terms Run.toy "toy" "cosine" false psg_gym_bench queries);
    [ right; reflexivity | exact Hnd ].
Defined.

(** X4: "gym" given a second time. *)
Lemma try_model_repeated_term_witness :
  Run.try_model "toy" "cosine" false psg_gym_bench (["gym"; "tent"] ++ ["gym"])
  = Run.try_model "toy" "cosine" false psg_gym_bench ["gym"; "tent"].
Proof.
  apply (@try_model_repeated_term Run.toy). left. reflexivity.
Defined.

(** X5: "bench" is the best match of the weights bench. *)
Lemma try_model_best_first_witness :
  Forall (fun y : pyfloat * string => PrimFloat.leb (fst y) 1 = true)
    [(0.875%float, "gym"); (0%float, "zzz")].
Proof.
  apply (@try_model_best_first Run.toy "toy" "dot" false psg_gym_bench
           ["gym"; "bench"; "zzz"] (1%float, "bench")).
  - vm_compute. reflexivity.
  - repeat constructor.
Defined.

(** X6: dot and cosine on the queries of the notebook. *)
Lemma try_model_same_terms_witness :
  exists r1 r2,
    Run.try_model "toy" "dot" false psg_tent queries = inr r1 /\
    Run.try_model "toy" "cosine" false psg_tent queries = inr r2 /\
    Permutation (map snd r1) (map snd r2).
Proof.
  apply (@try_model_same_terms Run.toy); [ left | right ]; reflexivity.
Defined.


(** X9 on the in-memory service: three queries, then a fourth. *)
Lemma queries_do_not_interfere_witness :
  fold_left (fun s t => snd (Run.do_query t s)) ["gym"; "tent"; "cat"] Run.nb2 = Run.nb2 /\
  Run.do_query "holiday"
    (fold_left (fun s t => snd (Run.do_query t s)) ["gym"; "tent"; "cat"] Run.nb2)
  = Run.do_query "holiday" Run.nb2.
Proof.
  apply (@queries_do_not_interfere Run.toy Run.mem). exact mem_es_search_read_only.
Defined.

(** X13 for the table model, whose vectors have two components. *)
Lemma query_dimension_is_index_dimension_witness :
  List.length (knn_vector (qry_knn (Run.qry
     (fold_left (fun s t => snd (Run.do_query t s)) ["gym"; "tent"]
        (snd (Run.add_documents (snd (Run.create_index Run.nb0))))) "holiday")))
  = map_dimension (map_vector (@idx Run.toy Run.mem Run.nb0)).
Proof.
  apply (@query_dimension_is_index_dimension Run.toy Run.mem Run.nb0 ["gym"; "tent"] "holiday").
  intros t1 t2. simpl. unfold Toy.encode. simpl.
  repeat match goal with
         | |- context [String.eqb ?a ?b] => destruct (String.eqb a b)
         end; reflexivity.
Defined.
